(** * Query runner and BigQuery sampler of the profiler

    Shallow embedding of
      ingestion/src/metadata/profiler/processor/runner.py          (QueryRunner)
      ingestion/src/metadata/sampler/sqlalchemy/bigquery/sampler.py (BigQuerySampler)

    SQLAlchemy queries are generative: [select_from], [filter], [suffix_with]
    and [cte] return a new query and leave the receiver alone, so a query is
    a record and the builders are pure functions on it.  Executing a query
    goes through the session, which here keeps the list of the statements it
    was asked to run; that list is what the theorems about "which query runs"
    read.  Collaborators that live outside the two files (the keyword-filter
    helper, the partition predicate builder, the base sampler) are Section
    variables and are taken to return normally. *)

From Stdlib Require Import Ascii.
From stdpp Require Import gmap strings list pretty.

(** ** Python values shared by both files *)

(** Truthiness of an [Optional[str]]: [None] and the empty string are falsy. *)
Definition truthy_str (o : option string) : bool :=
  match o with
  | Some s => negb (String.eqb s "")
  | None => false
  end.

(** Truthiness of an [Optional[Dict]]: [None] and the empty dict are falsy. *)
Definition truthy_dict (o : option (gmap string string)) : bool :=
  match o with
  | Some d => negb (bool_decide (d = ∅))
  | None => false
  end.

(** A column descriptor of a mapped table. *)
Record Column := mkColumn { name : string; type_ : string }.

(** A mapped table class: [__tablename__] and the column collection
    [__table__.c]. *)
Record DeclarativeMeta := mkTable {
  __tablename__ : string;
  __table__c : list Column
}.

Module Runner.

(** The sample bound to a runner is [Union[DeclarativeMeta, AliasedClass]]. *)
Inductive SampleHandle :=
| Declarative (t : DeclarativeMeta)
| AliasedClass (t : DeclarativeMeta).

Definition isinstance_AliasedClass (s : SampleHandle) : bool :=
  match s with
  | AliasedClass _ => true
  | Declarative _ => false
  end.

Definition sample_columns (s : SampleHandle) : list Column :=
  match s with
  | AliasedClass t | Declarative t => __table__c t
  end.

(** What a query selects from. [FromStatement t s] is
    [session.query(t).from_statement(text(s))]. *)
Inductive Source :=
| FromTable (t : DeclarativeMeta)
| FromSample (s : SampleHandle)
| FromStatement (entity : DeclarativeMeta) (statement : string).

Section WithBackend.

Context {Row Predicate : Type}.

(** [metadata.utils.sqa_utils.get_query_filter_for_runner]: receives the
    keyword dict itself (not a copy), so besides the optional filter it
    hands back the dict as the caller sees it afterwards. *)
Variable get_query_filter_for_runner :
  gmap string string -> option Predicate * gmap string string.

(** [metadata.profiler.processor.handle_partition.build_partition_predicate]. *)
Variable build_partition_predicate :
  gmap string string -> list Column -> Predicate.

Record Query := mkQuery {
  q_entities : list string;
  q_kwargs : gmap string string;
  q_from : option Source;
  q_filter : list Predicate
}.

Definition Session_query (entities : list string) (kwargs : gmap string string)
  : Query :=
  {| q_entities := entities; q_kwargs := kwargs; q_from := None; q_filter := [] |}.

Definition select_from (q : Query) (src : Source) : Query :=
  {| q_entities := q_entities q; q_kwargs := q_kwargs q;
     q_from := Some src; q_filter := q_filter q |}.

(** [Query.filter]: the criterion is ANDed to the ones already there. *)
Definition filter_ (q : Query) (criterion : Predicate) : Query :=
  {| q_entities := q_entities q; q_kwargs := q_kwargs q;
     q_from := q_from q; q_filter := q_filter q ++ [criterion] |}.

(** The session: the data source answering a query, the statements it has
    been asked to run so far, and the sizes of the batches its cursors have
    handed out so far. *)
Record Session := mkSession {
  backend : Query -> list Row;
  executed : list Query;
  batches : list nat
}.

Record QueryRunner := mkQueryRunner {
  _session : Session;
  table : DeclarativeMeta;
  _sample : SampleHandle;
  partition_details : option (gmap string string);
  profile_sample_query : option string
}.

(** Methods run against the instance and may update it. *)
Definition M (A : Type) : Type := QueryRunner -> A * QueryRunner.

Definition ret {A} (a : A) : M A := fun self => (a, self).
Definition bind {A B} (m : M A) (k : A -> M B) : M B :=
  fun self => let '(a, self') := m self in k a self'.
Definition get_self : M QueryRunner := fun self => (self, self).

Notation "'let*' x := m 'in' k" := (bind m (fun x => k))
  (at level 10, x name, m at level 100, k at level 200, only parsing).

(** The session records the statement; every other field is left alone. *)
Definition record_statement (q : Query) (self : QueryRunner) : QueryRunner :=
  {| _session := {| backend := backend (_session self);
                    executed := executed (_session self) ++ [q];
                    batches := batches (_session self) |};
     table := table self;
     _sample := _sample self;
     partition_details := partition_details self;
     profile_sample_query := profile_sample_query self |}.

(** The session records the sizes of batches handed out. *)
Definition record_batches (sizes : list nat) (self : QueryRunner) : QueryRunner :=
  {| _session := {| backend := backend (_session self);
                    executed := executed (_session self);
                    batches := batches (_session self) ++ sizes |};
     table := table self;
     _sample := _sample self;
     partition_details := partition_details self;
     profile_sample_query := profile_sample_query self |}.

(** A fetch returns a row or [None] ([first]) or a list of rows ([all]). *)
Inductive Result :=
| RowOrNone (r : option Row)
| RowList (l : list Row).

Definition Query_first (q : Query) : M Result :=
  fun self => (RowOrNone (head (backend (_session self) q)), record_statement q self).

Definition Query_all (q : Query) : M Result :=
  fun self => (RowList (backend (_session self) q), record_statement q self).

(** The forward-only result of [Session.execute]: the rows not fetched
    yet. *)
Record Cursor := mkCursor { pending : list Row }.

Definition Session_execute (q : Query) : M Cursor :=
  fun self => ({| pending := backend (_session self) q |},
               record_statement q self).

(** [Result.fetchmany(size)]: at most [size] of the pending rows, in order;
    the cursor moves past them. *)
Definition fetchmany (size : nat) (c : Cursor) : M (list Row * Cursor) :=
  fun self =>
    let rows := take size (pending c) in
    ((rows, {| pending := drop size (pending c) |}),
     record_batches [length rows] self).

(** *** QueryRunner *)

Definition _build_query (self : QueryRunner) (entities : list string)
    (kwargs : gmap string string) : Query :=
  Session_query entities kwargs.

Definition _select_from_sample (self : QueryRunner) (entities : list string)
    (kwargs : gmap string string) : Query :=
  let '(filter', kwargs) := get_query_filter_for_runner kwargs in
  let query := select_from (_build_query self entities kwargs)
                 (FromSample (_sample self)) in
  match filter' with
  | Some f => filter_ query f
  | None => query
  end.

Definition user_query_text (self : QueryRunner) : string :=
  default "None" (profile_sample_query self).

Definition _select_from_user_query (self : QueryRunner) (entities : list string)
    (kwargs : gmap string string) : Query :=
  let '(filter', kwargs) := get_query_filter_for_runner kwargs in
  let user_query := FromStatement (table self) (user_query_text self) in
  let query := select_from (_build_query self entities kwargs) user_query in
  match filter' with
  | Some f => filter_ query f
  | None => query
  end.

(** Modelled from the spec: the decorator
    [metadata.profiler.processor.handle_partition.partition_filter_handler]
    is not part of the two files.  The spec describes it as one policy
    composed around the raw fetch call, parametrised by cardinality
    ([first]) and source kind ([sampled]): when a partition spec is bound it
    ANDs the partition predicate, rebuilt from the target's column
    descriptors, into the filter chain before execution, the target being
    the table or the custom query for a table operation and the sample for a
    sample operation, with the keyword filter still applied; when no
    partition spec is bound the wrapped fetch runs as written. *)
Definition partition_filter_handler (first sampled : bool)
    (fn : list string -> gmap string string -> M Result)
    (entities : list string) (kwargs : gmap string string) : M Result :=
  let* self := get_self in
  if truthy_dict (partition_details self) then
    let partition_filter :=
      build_partition_predicate (default ∅ (partition_details self))
        (if sampled then sample_columns (_sample self)
         else __table__c (table self)) in
    let target :=
      if sampled then _select_from_sample self entities kwargs
      else if truthy_str (profile_sample_query self)
           then _select_from_user_query self entities kwargs
           else
             let '(filter', kwargs) := get_query_filter_for_runner kwargs in
             let query := select_from (_build_query self entities kwargs)
                            (FromTable (table self)) in
             match filter' with
             | Some f => filter_ query f
             | None => query
             end in
    let query := filter_ target partition_filter in
    if first then Query_first query else Query_all query
  else fn entities kwargs.

(** Body of [select_first_from_table], runner.py lines 91-102. *)
Definition select_first_from_table_body (entities : list string)
    (kwargs : gmap string string) : M Result :=
  let* self := get_self in
  let '(filter', kwargs) := get_query_filter_for_runner kwargs in
  if truthy_str (profile_sample_query self) then
    Query_first (_select_from_user_query self entities kwargs)
  else
    let query := select_from (_build_query self entities kwargs)
                   (FromTable (table self)) in
    match filter' with
    | Some f => Query_first (filter_ query f)
    | None => Query_first query
    end.

Definition select_first_from_table :=
  partition_filter_handler true false select_first_from_table_body.

(** Body of [select_all_from_table], runner.py lines 105-117. *)
Definition select_all_from_table_body (entities : list string)
    (kwargs : gmap string string) : M Result :=
  let* self := get_self in
  let '(filter', kwargs) := get_query_filter_for_runner kwargs in
  if truthy_str (profile_sample_query self) then
    Query_all (_select_from_user_query self entities kwargs)
  else
    let query := select_from (_build_query self entities kwargs)
                   (FromTable (table self)) in
    match filter' with
    | Some f => Query_all (filter_ query f)
    | None => Query_all query
    end.

Definition select_all_from_table :=
  partition_filter_handler false false select_all_from_table_body.

Definition select_first_from_sample_body (entities : list string)
    (kwargs : gmap string string) : M Result :=
  let* self := get_self in
  Query_first (_select_from_sample self entities kwargs).

Definition select_first_from_sample :=
  partition_filter_handler true true select_first_from_sample_body.

Definition select_all_from_sample_body (entities : list string)
    (kwargs : gmap string string) : M Result :=
  let* self := get_self in
  Query_all (_select_from_sample self entities kwargs).

Definition select_all_from_sample :=
  partition_filter_handler false true select_all_from_sample_body.

(** [yield_from_sample] is a generator function: calling it only creates
    the generator, and its body runs, up to the next [yield], each time the
    consumer asks for a row. *)
Inductive Generator :=
| GenCreated (entities : list string) (kwargs : gmap string string)
| GenSuspended (result : Cursor) (rows : list Row)
| GenFinished.

Definition yield_from_sample (entities : list string)
    (kwargs : gmap string string) : M Generator :=
  ret (GenCreated entities kwargs).

(** One turn of [while True: rows = result.fetchmany(1000) ...]: an empty
    batch breaks out of the loop and the generator returns; otherwise
    [yield from rows] hands out the first row of the batch and keeps the
    others for the following requests. *)
Definition fetch_loop (result : Cursor) : M (option Row * Generator) :=
  let* batch := fetchmany 1000 result in
  let '(rows, result) := batch in
  match rows with
  | [] => ret (None, GenFinished)
  | r :: rows => ret (Some r, GenSuspended result rows)
  end.

(** [next(gen)]: [Some r] is a yielded row, [None] is [StopIteration].
    The first request runs runner.py lines 128-136: [query.filter(...)]
    returns a new query, which the body does not keep, and the statement
    handed to [execute] is built anew by [_select_from_sample]. *)
Definition next (gen : Generator) : M (option Row * Generator) :=
  match gen with
  | GenCreated entities kwargs =>
      let* self := get_self in
      let query := _select_from_sample self entities kwargs in
      let _ :=
        if truthy_dict (partition_details self) then
          let partition_filter :=
            build_partition_predicate (default ∅ (partition_details self))
              (__table__c (table self)) in
          Some (filter_ query partition_filter)
        else None in
      let* result := Session_execute (_select_from_sample self entities kwargs) in
      fetch_loop result
  | GenSuspended result (r :: rows) => ret (Some r, GenSuspended result rows)
  | GenSuspended result [] => fetch_loop result
  | GenFinished => ret (None, GenFinished)
  end.

(** The consumer's [for row in gen] loop, bounded by [fuel] requests. *)
Fixpoint consume (fuel : nat) (gen : Generator) (self : QueryRunner)
  : list Row * Generator * QueryRunner :=
  match fuel with
  | 0 => ([], gen, self)
  | S fuel =>
      match next gen self with
      | ((Some r, gen), self) =>
          let '(rows, gen, self) := consume fuel gen self in
          (r :: rows, gen, self)
      | ((None, gen), self) => ([], gen, self)
      end
  end.

Definition dispatch_query_select_first (entities : list string)
    (kwargs : gmap string string) : M Result :=
  let* self := get_self in
  if isinstance_AliasedClass (_sample self) then
    select_first_from_sample entities kwargs
  else select_first_from_table entities kwargs.

Definition select_first_from_query (query : Query) : M Result :=
  Query_first query.

Definition select_all_from_query (query : Query) : M Result :=
  Query_all query.

(** *** What the session is left with after a fetch *)

Definition statements_after {A} (m : M A) (self : QueryRunner) : list Query :=
  executed (_session (m self).2).

(** The filter the helper derives from a keyword dict, as a filter chain. *)
Definition keyword_filter (kwargs : gmap string string) : list Predicate :=
  option_list (get_query_filter_for_runner kwargs).1.

(** The partition predicate a decorated fetch adds: none without a
    partition spec. *)
Definition partition_chain (sampled : bool) (self : QueryRunner)
  : list Predicate :=
  if truthy_dict (partition_details self) then
    [build_partition_predicate (default ∅ (partition_details self))
       (if sampled then sample_columns (_sample self)
        else __table__c (table self))]
  else [].

(** The query a table fetch runs when the custom query string is truthy:
    without a partition spec the body has consulted the filter helper once
    before it hands the keyword dict to [_select_from_user_query]. *)
Definition user_query_run (self : QueryRunner) (entities : list string)
    (kwargs : gmap string string) : Query :=
  if truthy_dict (partition_details self) then
    foldl filter_ (_select_from_user_query self entities kwargs)
      (partition_chain false self)
  else
    _select_from_user_query self entities
      (get_query_filter_for_runner kwargs).2.

(** The query a table fetch runs when the custom query string is falsy. *)
Definition table_query (self : QueryRunner) (entities : list string)
    (kwargs : gmap string string) : Query :=
  foldl filter_
    (select_from (_build_query self entities (get_query_filter_for_runner kwargs).2)
       (FromTable (table self)))
    (keyword_filter kwargs ++ partition_chain false self).

(** The statement a table fetch body runs against the raw table: the
    query is built from the keyword dict as the helper leaves it, and
    filtered by what the helper derived. *)
Definition raw_table_query (self : QueryRunner) (entities : list string)
    (kwargs : gmap string string) : Query :=
  foldl filter_
    (select_from (_build_query self entities (get_query_filter_for_runner kwargs).2)
       (FromTable (table self)))
    (keyword_filter kwargs).

(** The four bindings of an instance other than the session. *)
Definition same_bindings (self self' : QueryRunner) : Prop :=
  table self' = table self ∧
  _sample self' = _sample self ∧
  partition_details self' = partition_details self ∧
  profile_sample_query self' = profile_sample_query self.

(** The sizes of the batches a cursor with [n] pending rows hands out to
    [fetch_loop] until the empty batch that ends the loop. *)
Fixpoint batch_sizes_from (fuel n : nat) : list nat :=
  match fuel with
  | 0 => []
  | S fuel =>
      if n =? 0 then [0]
      else (n `min` 1000) :: batch_sizes_from fuel (n - 1000)
  end.

Definition batch_sizes (n : nat) : list nat := batch_sizes_from (S n) n.

(** The rows a suspended generator holds locally. *)
Definition buffered (gen : Generator) : list Row :=
  match gen with
  | GenSuspended _ rows => rows
  | _ => []
  end.

(** The generator and the instance after [n] requests. *)
Fixpoint requests (n : nat) (gen : Generator) (self : QueryRunner)
  : Generator * QueryRunner :=
  match n with
  | 0 => (gen, self)
  | S n => let '((_, gen), self) := next gen self in requests n gen self
  end.

(** ** Facts about the query builders *)

Lemma foldl_filter_source q chain : q_from (foldl filter_ q chain) = q_from q.
Proof. revert q. induction chain as [|p chain IH]; intros q; [done|]. cbn. by rewrite IH. Qed.

Lemma foldl_filter_chain q chain :
  q_filter (foldl filter_ q chain) = q_filter q ++ chain.
Proof.
  revert q. induction chain as [|p chain IH]; intros q; cbn.
  - by rewrite app_nil_r.
  - rewrite IH. cbn. by rewrite <- app_assoc.
Qed.

Lemma select_from_sample_source self entities kwargs :
  q_from (_select_from_sample self entities kwargs)
  = Some (FromSample (_sample self)).
Proof.
  unfold _select_from_sample.
  destruct (get_query_filter_for_runner kwargs) as [[f|] kwargs']; reflexivity.
Qed.

Lemma select_from_sample_chain self entities kwargs :
  q_filter (_select_from_sample self entities kwargs) = keyword_filter kwargs.
Proof.
  unfold _select_from_sample, keyword_filter.
  destruct (get_query_filter_for_runner kwargs) as [[f|] kwargs']; reflexivity.
Qed.

Lemma select_from_user_query_source self entities kwargs :
  q_from (_select_from_user_query self entities kwargs)
  = Some (FromStatement (table self) (user_query_text self)).
Proof.
  unfold _select_from_user_query.
  destruct (get_query_filter_for_runner kwargs) as [[f|] kwargs']; reflexivity.
Qed.

Lemma select_from_user_query_chain self entities kwargs :
  q_filter (_select_from_user_query self entities kwargs) = keyword_filter kwargs.
Proof.
  unfold _select_from_user_query, keyword_filter.
  destruct (get_query_filter_for_runner kwargs) as [[f|] kwargs']; reflexivity.
Qed.

Lemma user_query_text_truthy self :
  truthy_str (profile_sample_query self) = true →
  profile_sample_query self = Some (user_query_text self).
Proof.
  unfold user_query_text. destruct (profile_sample_query self); [reflexivity | discriminate].
Qed.

(** ** What each fetch runs *)

Ltac run_fetch :=
  unfold select_first_from_table, select_all_from_table,
    select_first_from_sample, select_all_from_sample,
    select_first_from_table_body, select_all_from_table_body,
    select_first_from_sample_body, select_all_from_sample_body,
    partition_filter_handler, partition_chain, statements_after,
    bind, get_self, ret; cbn beta iota.

(** A sample fetch runs the sample query, the partition predicate on top. *)
Lemma select_first_from_sample_run self entities kwargs :
  select_first_from_sample entities kwargs self
  = Query_first (foldl filter_ (_select_from_sample self entities kwargs)
                   (partition_chain true self)) self.
Proof. run_fetch. destruct (truthy_dict (partition_details self)); reflexivity. Qed.

Lemma select_all_from_sample_run self entities kwargs :
  select_all_from_sample entities kwargs self
  = Query_all (foldl filter_ (_select_from_sample self entities kwargs)
                 (partition_chain true self)) self.
Proof. run_fetch. destruct (truthy_dict (partition_details self)); reflexivity. Qed.

Lemma select_first_from_table_custom self entities kwargs :
  truthy_str (profile_sample_query self) = true →
  select_first_from_table entities kwargs self
  = Query_first (user_query_run self entities kwargs) self.
Proof.
  intros Hq. unfold user_query_run. run_fetch.
  destruct (get_query_filter_for_runner kwargs) as [f kwargs'].
  destruct (truthy_dict (partition_details self)); cbn; rewrite Hq; reflexivity.
Qed.

Lemma select_all_from_table_custom self entities kwargs :
  truthy_str (profile_sample_query self) = true →
  select_all_from_table entities kwargs self
  = Query_all (user_query_run self entities kwargs) self.
Proof.
  intros Hq. unfold user_query_run. run_fetch.
  destruct (get_query_filter_for_runner kwargs) as [f kwargs'].
  destruct (truthy_dict (partition_details self)); cbn; rewrite Hq; reflexivity.
Qed.

Lemma user_query_run_source self entities kwargs :
  q_from (user_query_run self entities kwargs)
  = Some (FromStatement (table self) (user_query_text self)).
Proof.
  unfold user_query_run, partition_chain.
  destruct (truthy_dict (partition_details self)); cbn;
    apply select_from_user_query_source.
Qed.

Lemma user_query_run_chain_exact self entities kwargs :
  q_filter (user_query_run self entities kwargs)
  = if truthy_dict (partition_details self)
    then keyword_filter kwargs ++ partition_chain false self
    else keyword_filter (get_query_filter_for_runner kwargs).2.
Proof.
  unfold user_query_run.
  destruct (truthy_dict (partition_details self)).
  - by rewrite foldl_filter_chain, select_from_user_query_chain.
  - apply select_from_user_query_chain.
Qed.

Lemma select_first_from_table_plain self entities kwargs :
  truthy_str (profile_sample_query self) = false →
  select_first_from_table entities kwargs self
  = Query_first (table_query self entities kwargs) self.
Proof.
  intros Hq. unfold table_query, keyword_filter. run_fetch.
  destruct (get_query_filter_for_runner kwargs) as [[f|] kwargs'];
    destruct (truthy_dict (partition_details self)); cbn; rewrite Hq; reflexivity.
Qed.

Lemma select_all_from_table_plain self entities kwargs :
  truthy_str (profile_sample_query self) = false →
  select_all_from_table entities kwargs self
  = Query_all (table_query self entities kwargs) self.
Proof.
  intros Hq. unfold table_query, keyword_filter. run_fetch.
  destruct (get_query_filter_for_runner kwargs) as [[f|] kwargs'];
    destruct (truthy_dict (partition_details self)); cbn; rewrite Hq; reflexivity.
Qed.

Lemma table_query_source self entities kwargs :
  q_from (table_query self entities kwargs) = Some (FromTable (table self)).
Proof. unfold table_query. by rewrite foldl_filter_source. Qed.

(** ** The batch stream *)

Lemma batch_sizes_from_fuel fuel1 fuel2 n :
  n < fuel1 → n < fuel2 → batch_sizes_from fuel1 n = batch_sizes_from fuel2 n.
Proof.
  revert fuel2 n. induction fuel1 as [|fuel1 IH]; intros [|fuel2] n H1 H2; try lia.
  cbn [batch_sizes_from]. destruct (Nat.eqb_spec n 0) as [|Hn]; [done|].
  f_equal. apply IH; lia.
Qed.

Lemma batch_sizes_pos n :
  n ≠ 0 → batch_sizes n = (n `min` 1000) :: batch_sizes (n - 1000).
Proof.
  intros Hn. unfold batch_sizes at 1. cbn [batch_sizes_from].
  destruct (Nat.eqb_spec n 0) as [|_]; [done|].
  f_equal. unfold batch_sizes. apply batch_sizes_from_fuel; lia.
Qed.

Lemma batch_sizes_bounded n : Forall (λ size, size ≤ 1000) (batch_sizes n).
Proof.
  unfold batch_sizes. generalize (S n) as fuel. intros fuel. revert n.
  induction fuel as [|fuel IH]; intros n; cbn [batch_sizes_from]; [constructor|].
  destruct (Nat.eqb_spec n 0) as [|_].
  - constructor; [lia | constructor].
  - constructor; [lia | apply IH].
Qed.

Lemma record_batches_app sizes1 sizes2 self :
  record_batches sizes2 (record_batches sizes1 self)
  = record_batches (sizes1 ++ sizes2) self.
Proof. unfold record_batches. cbn. by rewrite app_assoc. Qed.

Lemma fetch_loop_empty result self :
  pending result = [] →
  fetch_loop result self = ((None, GenFinished), record_batches [0] self).
Proof.
  intros Hp. unfold fetch_loop, fetchmany, bind, ret. rewrite Hp.
  by rewrite take_nil.
Qed.

Lemma fetch_loop_batch result self :
  pending result ≠ [] →
  ∃ r rows,
    take 1000 (pending result) = r :: rows ∧
    fetch_loop result self
    = ((Some r, GenSuspended {| pending := drop 1000 (pending result) |} rows),
       record_batches [length (pending result) `min` 1000] self).
Proof.
  intros Hp. unfold fetch_loop, fetchmany, bind, ret.
  rewrite length_take.
  destruct (pending result) as [|r0 rest] eqn:Hpend; [done|].
  change (take 1000 (r0 :: rest)) with (r0 :: take 999 rest).
  replace (length (r0 :: rest) `min` 1000) with (1000 `min` length (r0 :: rest)) by lia.
  eexists _, _. split; reflexivity.
Qed.

(** Consuming a suspended generator hands out the buffered rows, then the
    pending ones batch by batch, and stops on the first empty batch. *)
Lemma consume_suspended fuel result rows self :
  length rows + length (pending result) < fuel →
  consume fuel (GenSuspended result rows) self
  = (rows ++ pending result, GenFinished,
     record_batches (batch_sizes (length (pending result))) self).
Proof.
  revert result rows self.
  induction fuel as [|fuel IH]; intros result rows self Hfuel; [lia|].
  destruct rows as [|r rows].
  - cbn [consume next].
    destruct (decide (pending result = [])) as [Hp|Hp].
    + rewrite (fetch_loop_empty _ _ Hp), Hp. reflexivity.
    + destruct (fetch_loop_batch result self Hp) as (r & rows & Htake & ->).
      assert (Hsplit : pending result = (r :: rows) ++ drop 1000 (pending result))
        by (rewrite <- Htake; symmetry; apply take_drop).
      assert (Hlen : length (pending result)
                     = S (length rows + length (drop 1000 (pending result))))
        by (rewrite Hsplit at 1; rewrite length_app; reflexivity).
      rewrite IH by (cbn [pending]; lia).
      cbn [pending]. rewrite record_batches_app, length_drop.
      rewrite (batch_sizes_pos (length (pending result))) by lia.
      rewrite Hsplit at 4. reflexivity.
  - cbn [consume next]. unfold ret.
    rewrite IH by (cbn [length] in Hfuel; lia). reflexivity.
Qed.

(** The first request runs the body up to the first [yield]: it builds the
    sample query, executes it, and enters the fetch loop. *)
Lemma next_created self entities kwargs :
  next (GenCreated entities kwargs) self
  = fetch_loop
      {| pending := backend (_session self) (_select_from_sample self entities kwargs) |}
      (record_statement (_select_from_sample self entities kwargs) self).
Proof. reflexivity. Qed.

Lemma consume_created fuel self entities kwargs :
  length (backend (_session self) (_select_from_sample self entities kwargs)) < fuel →
  consume fuel (GenCreated entities kwargs) self
  = (backend (_session self) (_select_from_sample self entities kwargs),
     GenFinished,
     record_batches
       (batch_sizes
          (length (backend (_session self) (_select_from_sample self entities kwargs))))
       (record_statement (_select_from_sample self entities kwargs) self)).
Proof.
  intros Hfuel.
  set (q := _select_from_sample self entities kwargs) in *.
  set (self' := record_statement q self).
  pose proof (consume_suspended fuel {| pending := backend (_session self) q |} [] self')
    as Hrun.
  cbn [pending length app] in Hrun. rewrite <- Hrun by lia.
  destruct fuel as [|fuel]; [lia|]. reflexivity.
Qed.

Lemma batch_sizes_from_last fuel n :
  n < fuel → last (batch_sizes_from fuel n) = Some 0.
Proof.
  revert n. induction fuel as [|fuel IH]; intros n Hfuel; [lia|].
  cbn [batch_sizes_from]. destruct (Nat.eqb_spec n 0) as [|Hn]; [done|].
  specialize (IH (n - 1000) ltac:(lia)).
  destruct (batch_sizes_from fuel (n - 1000)) as [|size sizes]; [done|].
  exact IH.
Qed.

Lemma batch_sizes_from_sum fuel n :
  n < fuel → sum_list (batch_sizes_from fuel n) = n.
Proof.
  revert n. induction fuel as [|fuel IH]; intros n Hfuel; [lia|].
  cbn [batch_sizes_from]. destruct (Nat.eqb_spec n 0) as [|Hn]; [by subst|].
  cbn [sum_list sum_list_with]. rewrite IH by lia. unfold id. lia.
Qed.

Lemma fetch_loop_buffered result self :
  length (buffered (fetch_loop result self).1.2) < 1000.
Proof.
  destruct (decide (pending result = [])) as [Hp|Hp].
  - rewrite (fetch_loop_empty _ _ Hp). cbn. lia.
  - destruct (fetch_loop_batch result self Hp) as (r & rows & Htake & ->).
    cbn [fst snd buffered].
    assert (length (r :: rows) ≤ 1000) by (rewrite <- Htake, length_take; lia).
    cbn [length] in *. lia.
Qed.

Lemma next_buffered gen self :
  length (buffered gen) < 1000 →
  length (buffered (next gen self).1.2) < 1000.
Proof.
  destruct gen as [entities kwargs|result [|r rows]|]; intros Hbuf.
  - rewrite next_created. apply fetch_loop_buffered.
  - apply fetch_loop_buffered.
  - cbn in *. lia.
  - cbn. lia.
Qed.

Lemma requests_buffered n gen self :
  length (buffered gen) < 1000 →
  length (buffered (requests n gen self).1) < 1000.
Proof.
  revert gen self. induction n as [|n IH]; intros gen self Hbuf; [done|].
  cbn [requests]. pose proof (next_buffered gen self Hbuf) as Hnext.
  destruct (next gen self) as [[row gen'] self']. by apply IH.
Qed.

(** ** The bindings of the instance *)

Lemma same_bindings_refl self : same_bindings self self.
Proof. by repeat split. Qed.

Lemma same_bindings_trans self1 self2 self3 :
  same_bindings self1 self2 → same_bindings self2 self3 → same_bindings self1 self3.
Proof.
  intros (? & ? & ? & ?) (? & ? & ? & ?). repeat split; congruence.
Qed.

Lemma record_statement_bindings q self : same_bindings self (record_statement q self).
Proof. by repeat split. Qed.

Lemma record_batches_bindings sizes self :
  same_bindings self (record_batches sizes self).
Proof. by repeat split. Qed.

Lemma fetch_loop_bindings result self : same_bindings self (fetch_loop result self).2.
Proof.
  unfold fetch_loop, fetchmany, bind, ret.
  destruct (take 1000 (pending result)); apply record_batches_bindings.
Qed.

Lemma fetch_loop_executed result self :
  executed (_session (fetch_loop result self).2) = executed (_session self).
Proof.
  unfold fetch_loop, fetchmany, bind, ret.
  destruct (take 1000 (pending result)); reflexivity.
Qed.

Lemma next_bindings gen self : same_bindings self (next gen self).2.
Proof.
  destruct gen as [entities kwargs|result [|r rows]|].
  - rewrite next_created.
    eapply same_bindings_trans; [|apply fetch_loop_bindings].
    apply record_statement_bindings.
  - apply fetch_loop_bindings.
  - apply same_bindings_refl.
  - apply same_bindings_refl.
Qed.

Lemma consume_bindings fuel gen self : same_bindings self (consume fuel gen self).2.
Proof.
  revert gen self. induction fuel as [|fuel IH]; intros gen self.
  - apply same_bindings_refl.
  - cbn [consume]. pose proof (next_bindings gen self) as Hnext.
    destruct (next gen self) as [[[r|] gen'] self']; [|exact Hnext].
    specialize (IH gen' self').
    destruct (consume fuel gen' self') as [[rows gen''] self''].
    eapply same_bindings_trans; [exact Hnext | exact IH].
Qed.

Lemma select_table_bindings self entities kwargs :
  same_bindings self (select_first_from_table entities kwargs self).2 ∧
  same_bindings self (select_all_from_table entities kwargs self).2.
Proof.
  destruct (truthy_str (profile_sample_query self)) eqn:Hq.
  - rewrite select_first_from_table_custom, select_all_from_table_custom by done.
    split; apply record_statement_bindings.
  - rewrite select_first_from_table_plain, select_all_from_table_plain by done.
    split; apply record_statement_bindings.
Qed.

Lemma select_sample_bindings self entities kwargs :
  same_bindings self (select_first_from_sample entities kwargs self).2 ∧
  same_bindings self (select_all_from_sample entities kwargs self).2.
Proof.
  rewrite select_first_from_sample_run, select_all_from_sample_run.
  split; apply record_statement_bindings.
Qed.

Lemma dispatch_unfold self entities kwargs :
  dispatch_query_select_first entities kwargs self
  = if isinstance_AliasedClass (_sample self)
    then select_first_from_sample entities kwargs self
    else select_first_from_table entities kwargs self.
Proof.
  unfold dispatch_query_select_first, bind, get_self.
  destruct (isinstance_AliasedClass (_sample self)); reflexivity.
Qed.

(** The first request of a stream executes the plain sample query: the
    partition spec has no part in the statement. *)
Lemma yield_from_sample_statement self entities kwargs :
  statements_after (next (GenCreated entities kwargs)) self
  = executed (_session self) ++ [_select_from_sample self entities kwargs].
Proof.
  unfold statements_after. rewrite next_created, fetch_loop_executed. reflexivity.
Qed.

(** ** The claims about the runner *)

(** C2 (as amended): when the custom query string is truthy (set and not
    empty), [select_first_from_table] and [select_all_from_table] run one
    statement each, the same for both, which selects from the custom query
    text wrapped as a statement over the table and never from the raw
    table, whatever the sample handle.  What becomes of the keyword filter
    on this path is left out. *)
Theorem table_fetch_runs_custom_query self entities kwargs :
  truthy_str (profile_sample_query self) = true →
  ∃ text query,
    profile_sample_query self = Some text ∧
    statements_after (select_first_from_table entities kwargs) self
      = executed (_session self) ++ [query] ∧
    statements_after (select_all_from_table entities kwargs) self
      = executed (_session self) ++ [query] ∧
    q_from query = Some (FromStatement (table self) text) ∧
    q_from query ≠ Some (FromTable (table self)).
Proof.
  intros Hq. exists (user_query_text self), (user_query_run self entities kwargs).
  split; [by apply user_query_text_truthy|].
  unfold statements_after.
  rewrite select_first_from_table_custom, select_all_from_table_custom by done.
  rewrite user_query_run_source.
  by repeat split.
Qed.

(** C3 (as amended): whether or not a custom query string is set,
    [_select_from_sample] builds a query that selects from the bound sample
    handle with the keyword filter on top, and [select_first_from_sample]
    and [select_all_from_sample] run that query, with the partition
    predicate added when a partition spec is bound; the custom query text is
    consulted by the table operations only. *)
Theorem sample_fetch_selects_from_sample self entities kwargs :
  q_from (_select_from_sample self entities kwargs)
    = Some (FromSample (_sample self)) ∧
  q_filter (_select_from_sample self entities kwargs) = keyword_filter kwargs ∧
  ∃ query,
    statements_after (select_first_from_sample entities kwargs) self
      = executed (_session self) ++ [query] ∧
    statements_after (select_all_from_sample entities kwargs) self
      = executed (_session self) ++ [query] ∧
    q_from query = Some (FromSample (_sample self)) ∧
    q_filter query = keyword_filter kwargs ++ partition_chain true self.
Proof.
  split; [apply select_from_sample_source|].
  split; [apply select_from_sample_chain|].
  exists (foldl filter_ (_select_from_sample self entities kwargs)
            (partition_chain true self)).
  unfold statements_after.
  rewrite select_first_from_sample_run, select_all_from_sample_run.
  rewrite foldl_filter_source, foldl_filter_chain.
  rewrite select_from_sample_source, select_from_sample_chain. done.
Qed.

(** C4: [dispatch_query_select_first] takes the sample path exactly when
    the bound sample handle is an [AliasedClass] and the table path
    otherwise, whatever the custom query string; on the sample path the
    statement selects from the sample handle even when a custom query string
    is set. *)
Theorem dispatch_by_sample_kind self entities kwargs :
  (isinstance_AliasedClass (_sample self) = true →
     dispatch_query_select_first entities kwargs self
       = select_first_from_sample entities kwargs self ∧
     ∃ query,
       statements_after (dispatch_query_select_first entities kwargs) self
         = executed (_session self) ++ [query] ∧
       q_from query = Some (FromSample (_sample self))) ∧
  (isinstance_AliasedClass (_sample self) = false →
     dispatch_query_select_first entities kwargs self
       = select_first_from_table entities kwargs self).
Proof.
  split; intros Hkind.
  - assert (Hrun : dispatch_query_select_first entities kwargs self
                   = select_first_from_sample entities kwargs self)
      by (rewrite dispatch_unfold, Hkind; reflexivity).
    split; [exact Hrun|].
    exists (foldl filter_ (_select_from_sample self entities kwargs)
              (partition_chain true self)).
    unfold statements_after. rewrite Hrun, select_first_from_sample_run.
    by rewrite foldl_filter_source, select_from_sample_source.
  - by rewrite dispatch_unfold, Hkind.
Qed.

(** C5: calling [yield_from_sample] only creates the generator; consuming
    it executes one fresh statement, hands out every row of its result in
    order and then stops; the rows are fetched in batches of at most 1000,
    whose sizes add up to the number of rows and end with the empty batch
    that stops the loop; a result of 2500 rows is fetched as 1000, 1000 and
    500 rows; the generator never holds 1000 rows or more locally; and a
    second invocation executes the statement again and hands out the rows
    again. *)
Theorem yield_from_sample_streams_batches self entities kwargs fuel :
  let query := _select_from_sample self entities kwargs in
  let rows := backend (_session self) query in
  length rows < fuel →
  yield_from_sample entities kwargs self = (GenCreated entities kwargs, self) ∧
  (∃ self',
     consume fuel (GenCreated entities kwargs) self = (rows, GenFinished, self') ∧
     executed (_session self') = executed (_session self) ++ [query] ∧
     batches (_session self')
       = batches (_session self) ++ batch_sizes (length rows) ∧
     ∃ self'',
       consume fuel (yield_from_sample entities kwargs self').1 self'
         = (rows, GenFinished, self'') ∧
       executed (_session self'') = executed (_session self) ++ [query; query]) ∧
  Forall (λ size, size ≤ 1000) (batch_sizes (length rows)) ∧
  sum_list (batch_sizes (length rows)) = length rows ∧
  last (batch_sizes (length rows)) = Some 0 ∧
  (length rows = 2500 → batch_sizes (length rows) = [1000; 1000; 500; 0]) ∧
  (∀ n, length (buffered (requests n (GenCreated entities kwargs) self).1) < 1000).
Proof.
  intros query rows Hfuel.
  split; [reflexivity|]. split.
  { eexists. split; [by apply consume_created|].
    split; [reflexivity|]. split; [reflexivity|].
    eexists. split.
    - cbn [yield_from_sample ret fst]. rewrite consume_created; [reflexivity|].
      exact Hfuel.
    - cbn. by rewrite <- app_assoc. }
  split; [apply batch_sizes_bounded|].
  split; [apply batch_sizes_from_sum; lia|].
  split; [apply batch_sizes_from_last; lia|].
  split; [by intros ->|].
  intros n. apply requests_buffered. cbn. lia.
Qed.

(** C8: [select_first_from_query] and [select_all_from_query] run the query
    they are given, as given: the statement the session receives is that
    query, with no filter added, whatever the partition spec and the custom
    query string of the instance, and the result is its first row (or
    [None]) and all its rows. *)
Theorem materialized_query_runs_as_given self query :
  select_first_from_query query self
    = (RowOrNone (head (backend (_session self) query)),
       record_statement query self) ∧
  select_all_from_query query self
    = (RowList (backend (_session self) query), record_statement query self) ∧
  statements_after (select_first_from_query query) self
    = executed (_session self) ++ [query] ∧
  statements_after (select_all_from_query query) self
    = executed (_session self) ++ [query].
Proof. repeat split. Qed.

(** C10: every fetch operation leaves the table handle, the sample handle,
    the partition spec and the custom query string of the instance as they
    were; for [yield_from_sample] this holds for the call, for every request
    and for a whole consumption of the stream. *)
Theorem fetch_keeps_bindings self entities kwargs query gen fuel :
  same_bindings self (select_first_from_table entities kwargs self).2 ∧
  same_bindings self (select_all_from_table entities kwargs self).2 ∧
  same_bindings self (select_first_from_sample entities kwargs self).2 ∧
  same_bindings self (select_all_from_sample entities kwargs self).2 ∧
  same_bindings self (yield_from_sample entities kwargs self).2 ∧
  same_bindings self (next gen self).2 ∧
  same_bindings self (consume fuel gen self).2 ∧
  same_bindings self (dispatch_query_select_first entities kwargs self).2 ∧
  same_bindings self (select_first_from_query query self).2 ∧
  same_bindings self (select_all_from_query query self).2.
Proof.
  destruct (select_table_bindings self entities kwargs) as [Htf Hta].
  destruct (select_sample_bindings self entities kwargs) as [Hsf Hsa].
  assert (Hd : same_bindings self
                 (dispatch_query_select_first entities kwargs self).2)
    by (rewrite dispatch_unfold;
        by destruct (isinstance_AliasedClass (_sample self))).
  pose proof (next_bindings gen self).
  pose proof (consume_bindings fuel gen self).
  pose proof (record_statement_bindings query self).
  pose proof (same_bindings_refl self).
  repeat split_and; assumption.
Qed.

(** ** Further properties of the runner *)

Lemma record_batches_nil self : record_batches [] self = self.
Proof.
  destruct self as [[b e bs] t s pd psq]. unfold record_batches. cbn.
  by rewrite app_nil_r.
Qed.

Lemma foldl_filter_entities q chain :
  q_entities (foldl filter_ q chain) = q_entities q.
Proof. revert q. induction chain as [|p chain IH]; intros q; [done|]. cbn. by rewrite IH. Qed.

Lemma foldl_filter_kwargs q chain :
  q_kwargs (foldl filter_ q chain) = q_kwargs q.
Proof. revert q. induction chain as [|p chain IH]; intros q; [done|]. cbn. by rewrite IH. Qed.

Lemma select_from_user_query_kwargs self entities kwargs :
  q_kwargs (_select_from_user_query self entities kwargs)
  = (get_query_filter_for_runner kwargs).2.
Proof.
  unfold _select_from_user_query.
  destruct (get_query_filter_for_runner kwargs) as [[f|] kwargs']; reflexivity.
Qed.

Lemma table_body_custom self entities kwargs :
  truthy_str (profile_sample_query self) = true →
  select_first_from_table_body entities kwargs self
  = Query_first (_select_from_user_query self entities
                   (get_query_filter_for_runner kwargs).2) self ∧
  select_all_from_table_body entities kwargs self
  = Query_all (_select_from_user_query self entities
                 (get_query_filter_for_runner kwargs).2) self.
Proof.
  intros Hq.
  unfold select_first_from_table_body, select_all_from_table_body, bind, get_self.
  cbn beta iota.
  destruct (get_query_filter_for_runner kwargs) as [f kwargs']. cbn [snd].
  by rewrite Hq.
Qed.

Lemma table_body_plain self entities kwargs :
  truthy_str (profile_sample_query self) = false →
  select_first_from_table_body entities kwargs self
  = Query_first (raw_table_query self entities kwargs) self ∧
  select_all_from_table_body entities kwargs self
  = Query_all (raw_table_query self entities kwargs) self.
Proof.
  intros Hq.
  unfold select_first_from_table_body, select_all_from_table_body,
    raw_table_query, keyword_filter, bind, get_self.
  cbn beta iota.
  destruct (get_query_filter_for_runner kwargs) as [[f|] kwargs'];
    cbn [fst snd option_list foldl]; by rewrite Hq.
Qed.

(** X1: when the custom query string is falsy ([None] or empty), the
    bodies of [select_first_from_table] and [select_all_from_table] run one
    and the same statement: the requested entities, selected from the raw
    table, filtered by exactly the keyword filter; the keyword arguments the
    session's query builder receives are the dict as the filter helper left
    it. *)
Theorem table_body_runs_raw_table self entities kwargs :
  truthy_str (profile_sample_query self) = false →
  ∃ query,
    select_first_from_table_body entities kwargs self = Query_first query self ∧
    select_all_from_table_body entities kwargs self = Query_all query self ∧
    q_entities query = entities ∧
    q_kwargs query = (get_query_filter_for_runner kwargs).2 ∧
    q_from query = Some (FromTable (table self)) ∧
    q_filter query = keyword_filter kwargs.
Proof.
  intros Hq. exists (raw_table_query self entities kwargs).
  destruct (table_body_plain self entities kwargs Hq) as [-> ->].
  unfold raw_table_query.
  by rewrite foldl_filter_entities, foldl_filter_kwargs, foldl_filter_source,
    foldl_filter_chain.
Qed.

(** X2: when the custom query string is truthy, the table bodies hand
    [_select_from_user_query] the keyword dict as the filter helper left it
    after the body's own consultation: the one statement they run selects
    from the custom query text, its filter chain is the filter derived from
    that left-over dict, not from the caller's dict, and the keyword
    arguments of its query builder are the dict after both consultations. *)
Theorem table_body_consults_helper_twice self entities kwargs :
  truthy_str (profile_sample_query self) = true →
  ∃ text query,
    profile_sample_query self = Some text ∧
    select_first_from_table_body entities kwargs self = Query_first query self ∧
    select_all_from_table_body entities kwargs self = Query_all query self ∧
    q_from query = Some (FromStatement (table self) text) ∧
    q_filter query = keyword_filter (get_query_filter_for_runner kwargs).2 ∧
    q_kwargs query
    = (get_query_filter_for_runner (get_query_filter_for_runner kwargs).2).2.
Proof.
  intros Hq.
  exists (user_query_text self),
    (_select_from_user_query self entities (get_query_filter_for_runner kwargs).2).
  destruct (table_body_custom self entities kwargs Hq) as [-> ->].
  rewrite select_from_user_query_source, select_from_user_query_chain,
    select_from_user_query_kwargs.
  by rewrite <- user_query_text_truthy.
Qed.

(** X4: a fetch body issues exactly one statement: whatever the arguments
    and the bindings, each of the four bodies makes the session's list of
    executed statements grow by one entry and leaves the batch log alone. *)
Theorem fetch_body_issues_one_statement self entities kwargs :
  Forall
    (λ body : list string → gmap string string → M Result,
       ∃ query,
         statements_after (body entities kwargs) self
         = executed (_session self) ++ [query] ∧
         batches (_session (body entities kwargs self).2) = batches (_session self))
    [select_first_from_table_body; select_all_from_table_body;
     select_first_from_sample_body; select_all_from_sample_body].
Proof.
  assert (Htable :
    ∃ query,
      select_first_from_table_body entities kwargs self = Query_first query self ∧
      select_all_from_table_body entities kwargs self = Query_all query self).
  { destruct (truthy_str (profile_sample_query self)) eqn:Hq.
    - eexists. by apply table_body_custom.
    - eexists. by apply table_body_plain. }
  destruct Htable as (query & Hfirst & Hall).
  unfold statements_after.
  repeat constructor.
  - exists query. by rewrite Hfirst.
  - exists query. by rewrite Hall.
  - by eexists.
  - by eexists.
Qed.

(** X5: when the sample query has no rows, [select_first_from_sample]'s
    body returns [None], [select_all_from_sample]'s body returns the empty
    list, and the very first request on the stream is [StopIteration], after
    one statement and a single empty batch. *)
Theorem empty_sample_result self entities kwargs :
  backend (_session self) (_select_from_sample self entities kwargs) = [] →
  (select_first_from_sample_body entities kwargs self).1 = RowOrNone None ∧
  (select_all_from_sample_body entities kwargs self).1 = RowList [] ∧
  next (GenCreated entities kwargs) self
  = ((None, GenFinished),
     record_batches [0]
       (record_statement (_select_from_sample self entities kwargs) self)).
Proof.
  intros Hrows.
  unfold select_first_from_sample_body, select_all_from_sample_body,
    bind, get_self, Query_first, Query_all. cbn [fst].
  rewrite Hrows. split; [done|]. split; [done|].
  rewrite next_created. by apply fetch_loop_empty.
Qed.

(** The closed form of the batch sizes: full batches, the remainder if
    there is one, and the empty batch. *)
Lemma batch_sizes_closed_form n :
  batch_sizes n
  = replicate (n / 1000) 1000
    ++ (if n `mod` 1000 =? 0 then [] else [n `mod` 1000]) ++ [0].
Proof.
  induction (lt_wf n) as [n _ IH].
  destruct (decide (n = 0)) as [->|Hn]; [reflexivity|].
  rewrite batch_sizes_pos by done.
  destruct (decide (n < 1000)) as [Hsmall|Hbig].
  - replace (n - 1000) with 0 by lia.
    rewrite Nat.div_small, Nat.mod_small by done.
    destruct (Nat.eqb_spec n 0) as [|_]; [done|].
    replace (n `min` 1000) with n by lia. reflexivity.
  - rewrite IH by lia.
    assert (Hdiv : n / 1000 = S ((n - 1000) / 1000)).
    { replace n with ((n - 1000) + 1 * 1000) at 1 by lia.
      rewrite Nat.div_add by lia. lia. }
    assert (Hmod : n `mod` 1000 = (n - 1000) `mod` 1000).
    { replace n with ((n - 1000) + 1 * 1000) at 1 by lia.
      by rewrite Nat.Div0.mod_add. }
    rewrite Hdiv, Hmod. replace (n `min` 1000) with 1000 by lia. reflexivity.
Qed.

(** X6: consuming the whole stream of [n] rows costs [n / 1000] full
    batches of 1000 rows, one more batch for the remainder if [n] is not a
    multiple of 1000, and one final empty batch; so a result whose size is a
    multiple of 1000 still pays for an extra, empty fetch. *)
Theorem stream_batches_closed_form self entities kwargs fuel :
  let rows := backend (_session self) (_select_from_sample self entities kwargs) in
  let n := length rows in
  n < fuel →
  batches (_session (consume fuel (GenCreated entities kwargs) self).2)
  = batches (_session self)
    ++ replicate (n / 1000) 1000
    ++ (if n `mod` 1000 =? 0 then [] else [n `mod` 1000]) ++ [0] ∧
  length (replicate (n / 1000) 1000
          ++ (if n `mod` 1000 =? 0 then [] else [n `mod` 1000]) ++ [0])
  = n / 1000 + (if n `mod` 1000 =? 0 then 0 else 1) + 1.
Proof.
  intros rows n Hfuel. split.
  - rewrite consume_created by exact Hfuel. cbn [snd record_batches _session batches].
    by rewrite batch_sizes_closed_form.
  - rewrite !length_app, length_replicate.
    destruct (n `mod` 1000 =? 0); cbn [length]; lia.
Qed.

(** Consuming [k] rows of a suspended generator that still has that many:
    the rows come out in order, the generator stays suspended on the rest,
    and the rows fetched meanwhile are the rows handed out plus those still
    buffered. *)
Lemma consume_partial k result rows self :
  k ≤ length rows + length (pending result) →
  ∃ result' rows' sizes,
    consume k (GenSuspended result rows) self
    = (take k (rows ++ pending result), GenSuspended result' rows',
       record_batches sizes self) ∧
    rows' ++ pending result' = drop k (rows ++ pending result) ∧
    sum_list sizes + length rows = k + length rows' ∧
    (length rows < 1000 → length rows' < 1000).
Proof.
  revert result rows self.
  induction k as [|k IH]; intros result rows self Hk.
  - exists result, rows, []. rewrite record_batches_nil. cbn. done.
  - destruct rows as [|r rows].
    + cbn [consume next].
      assert (Hp : pending result ≠ []).
      { intros Hp. rewrite Hp in Hk. cbn in Hk. lia. }
      destruct (fetch_loop_batch result self Hp) as (r & rows & Htake & ->).
      assert (Hbatch : length (pending result) `min` 1000 = S (length rows)).
      { change (S (length rows)) with (length (r :: rows)).
        rewrite <- Htake, length_take. lia. }
      assert (Hshort : length rows < 1000).
      { assert (length (r :: rows) ≤ 1000) by (rewrite <- Htake, length_take; lia).
        cbn [length] in *. lia. }
      pose proof (take_drop 1000 (pending result)) as Hsplit.
      rewrite Htake in Hsplit.
      destruct (IH {| pending := drop 1000 (pending result) |} rows
                  (record_batches [length (pending result) `min` 1000] self))
        as (result' & rows' & sizes & -> & Hrest & Hsum & Hbuf).
      { cbn [pending]. rewrite <- Hsplit in Hk at 1.
        rewrite length_app in Hk. cbn [length] in Hk. lia. }
      exists result', rows', (S (length rows) :: sizes).
      rewrite record_batches_app, Hbatch.
      cbn [pending app] in *.
      set (rest := drop 1000 (pending result)) in *. clearbody rest.
      rewrite <- Hsplit. cbn.
      split; [reflexivity|]. split; [exact Hrest|]. split; [lia|].
      intros _. by apply Hbuf.
    + cbn [consume next]. unfold ret.
      destruct (IH result rows self) as (result' & rows' & sizes & -> & Hrest & Hsum & Hbuf).
      { cbn [length] in Hk. lia. }
      exists result', rows', sizes. cbn [app length].
      split; [reflexivity|]. split; [exact Hrest|]. split; [lia|].
      intros Hlen. apply Hbuf. cbn [length] in Hlen. lia.
Qed.

Lemma consume_created_partial k self entities kwargs :
  1 ≤ k →
  k ≤ length (backend (_session self) (_select_from_sample self entities kwargs)) →
  ∃ result' rows' sizes,
    consume k (GenCreated entities kwargs) self
    = (take k (backend (_session self) (_select_from_sample self entities kwargs)),
       GenSuspended result' rows',
       record_batches sizes
         (record_statement (_select_from_sample self entities kwargs) self)) ∧
    sum_list sizes = k + length rows' ∧
    length rows' < 1000.
Proof.
  intros Hk1 Hk.
  set (q := _select_from_sample self entities kwargs) in *.
  destruct (consume_partial k {| pending := backend (_session self) q |} []
              (record_statement q self))
    as (result' & rows' & sizes & Hrun & _ & Hsum & Hbuf).
  { cbn [pending length]. lia. }
  exists result', rows', sizes.
  cbn [pending length app] in *. rewrite <- Hrun.
  split; [|split; [lia | apply Hbuf; lia]].
  destruct k as [|k]; [lia|]. reflexivity.
Qed.

(** X7: the stream is lazy: a consumer that takes only the first [k] rows
    (1 ≤ k ≤ number of rows) gets exactly those, in order, at the cost of one
    statement; the rows fetched from the cursor by then are the [k] rows
    handed out plus the fewer than 1000 rows buffered in the generator. *)
Theorem stream_fetches_lazily self entities kwargs k :
  let query := _select_from_sample self entities kwargs in
  let rows := backend (_session self) query in
  1 ≤ k → k ≤ length rows →
  ∃ gen' self' sizes,
    consume k (GenCreated entities kwargs) self = (take k rows, gen', self') ∧
    executed (_session self') = executed (_session self) ++ [query] ∧
    batches (_session self') = batches (_session self) ++ sizes ∧
    sum_list sizes = k + length (buffered gen') ∧
    length (buffered gen') < 1000.
Proof.
  intros query rows Hk1 Hk.
  destruct (consume_created_partial k self entities kwargs Hk1 Hk)
    as (result' & rows' & sizes & Hrun & Hsum & Hbuf).
  eexists (GenSuspended result' rows'), _, sizes.
  split; [exact Hrun|]. done.
Qed.

(** X8: a stream abandoned after [k] rows does not get in the way of the
    next one: a new invocation on the same instance executes the statement
    again and hands out every row from the first one on. *)
Theorem stream_restarts_after_partial_consumption self entities kwargs k fuel :
  let query := _select_from_sample self entities kwargs in
  let rows := backend (_session self) query in
  1 ≤ k → k ≤ length rows → length rows < fuel →
  ∃ gen' self' self'',
    consume k (GenCreated entities kwargs) self = (take k rows, gen', self') ∧
    consume fuel (yield_from_sample entities kwargs self').1 self'
    = (rows, GenFinished, self'') ∧
    executed (_session self'') = executed (_session self) ++ [query; query].
Proof.
  intros query rows Hk1 Hk Hfuel.
  destruct (consume_created_partial k self entities kwargs Hk1 Hk)
    as (result' & rows' & sizes & Hrun & _ & _).
  eexists _, _, _. split; [exact Hrun|].
  cbn [yield_from_sample ret fst].
  rewrite consume_created by exact Hfuel.
  split; [reflexivity|]. cbn. by rewrite <- app_assoc.
Qed.


End WithBackend.

(** ** A concrete data source

    Rows are numbers, predicates are their SQL text.  The filter helper
    reads the entry [query_filter_] and leaves the dict alone; the partition
    predicate names the partition column. *)
Module Demo.

Definition orders : DeclarativeMeta :=
  {| __tablename__ := "orders";
     __table__c := [mkColumn "id" "INT"; mkColumn "ds" "DATE"] |}.

Definition get_query_filter (kwargs : gmap string string)
  : option string * gmap string string :=
  (kwargs !! "query_filter_", kwargs).

(** A helper that takes the entry out of the dict it is given. *)
Definition pop_query_filter (kwargs : gmap string string)
  : option string * gmap string string :=
  (kwargs !! "query_filter_", delete "query_filter_" kwargs).

Definition build_predicate (details : gmap string string) (columns : list Column)
  : string :=
  default "" (details !! "partitionColumnName") +:+ " = CURRENT_DATE".

(** A session over a source that answers every query with rows 0..n-1. *)
Definition session (n : nat) : @Session nat string :=
  {| backend := λ _, seq 0 n; executed := []; batches := [] |}.

Definition by_day : gmap string string := {[ "partitionColumnName" := "ds" ]}.

(** A runner over [orders] with an aliased sample of it. *)
Definition runner (n : nat) (details : option (gmap string string))
    (custom : option string) : @QueryRunner nat string :=
  {| _session := session n;
     table := orders;
     _sample := AliasedClass orders;
     partition_details := details;
     profile_sample_query := custom |}.

(** The same runner with a plain (not aliased) sample handle. *)
Definition plain_runner (n : nat) (details : option (gmap string string))
    (custom : option string) : @QueryRunner nat string :=
  {| _session := session n;
     table := orders;
     _sample := Declarative orders;
     partition_details := details;
     profile_sample_query := custom |}.

Definition recent_orders : string := "SELECT * FROM orders WHERE id > 10".

Definition positive_ids : gmap string string := {[ "query_filter_" := "id > 0" ]}.

Abbreviation first_from_table := (select_first_from_table get_query_filter build_predicate).
Abbreviation all_from_table := (select_all_from_table get_query_filter build_predicate).
Abbreviation first_from_sample := (select_first_from_sample get_query_filter build_predicate).
Abbreviation all_from_sample := (select_all_from_sample get_query_filter build_predicate).
Abbreviation dispatch_first := (dispatch_query_select_first get_query_filter build_predicate).
Abbreviation next_row := (next get_query_filter build_predicate).
Abbreviation consume_rows := (consume get_query_filter build_predicate).

(** C1: with a partition spec bound, the statement [yield_from_sample]
    executes carries no partition predicate: the filtered query it builds is
    dropped and the plain sample query is executed, so every row of the
    sample is streamed; [select_all_from_sample] on the same instance does
    carry the predicate. *)
Theorem yield_from_sample_drops_partition_filter :
  let self := runner 3 (Some by_day) None in
  partition_details self = Some by_day ∧
  truthy_dict (partition_details self) = true ∧
  build_predicate by_day (__table__c orders) = "ds = CURRENT_DATE" ∧
  statements_after (next_row (GenCreated ["id"] ∅)) self
    = [ {| q_entities := ["id"]; q_kwargs := ∅;
           q_from := Some (FromSample (AliasedClass orders));
           q_filter := [] |} ] ∧
  (consume_rows 4 (GenCreated ["id"] ∅) self).1 = ([0; 1; 2], GenFinished) ∧
  statements_after (all_from_sample ["id"] ∅) self
    = [ {| q_entities := ["id"]; q_kwargs := ∅;
           q_from := Some (FromSample (AliasedClass orders));
           q_filter := ["ds = CURRENT_DATE"] |} ].
Proof. vm_compute. repeat split. Qed.

(** C2, as stated, fails for the empty custom query string: it is not
    [None], yet both table fetches select from the raw table. *)
Lemma empty_custom_query_runs_raw_table :
  let self := runner 3 None (Some "") in
  profile_sample_query self ≠ None ∧
  statements_after (first_from_table ["id"] ∅) self
    = [ {| q_entities := ["id"]; q_kwargs := ∅;
           q_from := Some (FromTable orders); q_filter := [] |} ] ∧
  statements_after (all_from_table ["id"] ∅) self
    = [ {| q_entities := ["id"]; q_kwargs := ∅;
           q_from := Some (FromTable orders); q_filter := [] |} ] ∧
  ¬ (∃ query,
       statements_after (first_from_table ["id"] ∅) self
         = executed (_session self) ++ [query] ∧
       q_from query = Some (FromStatement (table self) "")).
Proof.
  split; [discriminate|]. split; [reflexivity|]. split; [reflexivity|].
  intros (query & Hrun & Hfrom).
  vm_compute in Hrun. injection Hrun as <-. discriminate Hfrom.
Qed.

Lemma table_fetch_runs_custom_query_witness :
  let self := runner 3 None (Some recent_orders) in
  ∃ query,
    statements_after
      (select_first_from_table pop_query_filter build_predicate
         ["id"] positive_ids) self = [query] ∧
    statements_after
      (select_all_from_table pop_query_filter build_predicate
         ["id"] positive_ids) self = [query] ∧
    q_from query = Some (FromStatement orders recent_orders) ∧
    q_from query ≠ Some (FromTable orders).
Proof.
  intros self.
  destruct (table_fetch_runs_custom_query pop_query_filter build_predicate
              self ["id"] positive_ids eq_refl)
    as (text & query & Htext & Hfirst & Hall & Hfrom & Hraw).
  exists query. injection Htext as <-.
  split; [exact Hfirst|]. split; [exact Hall|]. split; [exact Hfrom|].
  exact Hraw.
Defined.

(** With a helper that takes the entry out of the dict it is given, the
    body's own consultation (line 93) leaves nothing for
    [_select_from_user_query] (line 77): the custom-query statement runs
    without the keyword filter, while the raw-table statement of the same
    call keeps it. *)
Lemma consuming_helper_loses_filter :
  q_filter <$> statements_after
                 (select_first_from_table pop_query_filter build_predicate
                    ["id"] positive_ids)
                 (runner 3 None (Some recent_orders)) = [[]] ∧
  q_filter <$> statements_after
                 (select_first_from_table pop_query_filter build_predicate
                    ["id"] positive_ids)
                 (runner 3 None None) = [["id > 0"]].
Proof. split; reflexivity. Qed.

(** C3, as stated, fails on the sample operations: with a custom query
    string set, [select_first_from_sample] selects from the sample handle,
    not from the custom query text. *)
Lemma sample_fetch_ignores_custom_query :
  let self := runner 3 None (Some recent_orders) in
  truthy_str (profile_sample_query self) = true ∧
  statements_after (first_from_sample ["id"] ∅) self
    = [ {| q_entities := ["id"]; q_kwargs := ∅;
           q_from := Some (FromSample (AliasedClass orders));
           q_filter := [] |} ] ∧
  ¬ (∃ query,
       statements_after (first_from_sample ["id"] ∅) self
         = executed (_session self) ++ [query] ∧
       q_from query = Some (FromStatement (table self) recent_orders)).
Proof.
  split; [reflexivity|]. split; [reflexivity|].
  intros (query & Hrun & Hfrom).
  vm_compute in Hrun. injection Hrun as <-. discriminate Hfrom.
Qed.

Lemma dispatch_by_sample_kind_witness :
  (dispatch_first ["id"] ∅ (runner 3 None (Some recent_orders))
     = first_from_sample ["id"] ∅ (runner 3 None (Some recent_orders)) ∧
   ∃ query,
     statements_after (dispatch_first ["id"] ∅) (runner 3 None (Some recent_orders))
       = [query] ∧
     q_from query = Some (FromSample (AliasedClass orders))) ∧
  dispatch_first ["id"] ∅ (plain_runner 3 None None)
    = first_from_table ["id"] ∅ (plain_runner 3 None None).
Proof.
  split.
  - exact (proj1 (dispatch_by_sample_kind get_query_filter build_predicate
                    (runner 3 None (Some recent_orders)) ["id"] ∅) eq_refl).
  - exact (proj2 (dispatch_by_sample_kind get_query_filter build_predicate
                    (plain_runner 3 None None) ["id"] ∅) eq_refl).
Defined.

Lemma yield_from_sample_streams_batches_witness :
  ∃ self',
    consume_rows 2501 (GenCreated ["id"] ∅) (runner 2500 None None)
      = (seq 0 2500, GenFinished, self') ∧
    length (seq 0 2500) = 2500 ∧
    executed (_session self')
      = [_select_from_sample get_query_filter (runner 2500 None None) ["id"] ∅] ∧
    batches (_session self') = [1000; 1000; 500; 0].
Proof.
  assert (Hlen : length (seq 0 2500) = 2500) by apply length_seq.
  destruct (yield_from_sample_streams_batches get_query_filter build_predicate
              (runner 2500 None None) ["id"] ∅ 2501)
    as (_ & (self' & Hrun & Hexec & Hbatches & _) & _ & _ & _ & Hsizes & _).
  { change (length (seq 0 2500) < 2501). rewrite Hlen. lia. }
  exists self'. split; [exact Hrun|]. split; [exact Hlen|].
  split; [exact Hexec|].
  rewrite Hbatches. exact (Hsizes Hlen).
Defined.

(** *** Instances of the further properties *)

Abbreviation first_table_body := (select_first_from_table_body get_query_filter).
Abbreviation all_table_body := (select_all_from_table_body get_query_filter).
Abbreviation first_sample_body := (select_first_from_sample_body get_query_filter).
Abbreviation all_sample_body := (select_all_from_sample_body get_query_filter).
Abbreviation sample_query_of := (_select_from_sample get_query_filter).

Lemma table_body_runs_raw_table_witness :
  ∃ query,
    first_table_body ["id"] positive_ids (runner 3 None (Some ""))
    = Query_first query (runner 3 None (Some "")) ∧
    all_table_body ["id"] positive_ids (runner 3 None (Some ""))
    = Query_all query (runner 3 None (Some "")) ∧
    q_entities query = ["id"] ∧
    q_kwargs query = positive_ids ∧
    q_from query = Some (FromTable orders) ∧
    q_filter query = ["id > 0"].
Proof.
  exact (table_body_runs_raw_table get_query_filter
           (runner 3 None (Some "")) ["id"] positive_ids eq_refl).
Defined.

Lemma table_body_consults_helper_twice_witness :
  ∃ text query,
    Some recent_orders = Some text ∧
    select_first_from_table_body pop_query_filter ["id"] positive_ids
      (runner 3 None (Some recent_orders))
    = Query_first query (runner 3 None (Some recent_orders)) ∧
    select_all_from_table_body pop_query_filter ["id"] positive_ids
      (runner 3 None (Some recent_orders))
    = Query_all query (runner 3 None (Some recent_orders)) ∧
    q_from query = Some (FromStatement orders text) ∧
    q_filter query = [] ∧
    q_kwargs query = ∅.
Proof.
  exact (table_body_consults_helper_twice pop_query_filter
           (runner 3 None (Some recent_orders)) ["id"] positive_ids eq_refl).
Defined.

Lemma empty_sample_result_witness :
  (first_sample_body ["id"] ∅ (runner 0 None None)).1 = RowOrNone None ∧
  (all_sample_body ["id"] ∅ (runner 0 None None)).1 = RowList [] ∧
  next_row (GenCreated ["id"] ∅) (runner 0 None None)
  = ((None, GenFinished),
     record_batches [0]
       (record_statement (sample_query_of (runner 0 None None) ["id"] ∅)
          (runner 0 None None))).
Proof.
  exact (empty_sample_result get_query_filter build_predicate
           (runner 0 None None) ["id"] ∅ eq_refl).
Defined.

Lemma stream_batches_closed_form_witness :
  batches (_session (consume_rows 2001 (GenCreated ["id"] ∅)
                       (runner 2000 None None)).2)
  = [1000; 1000; 0].
Proof.
  assert (Hfuel : length (backend (_session (runner 2000 None None))
                            (sample_query_of (runner 2000 None None) ["id"] ∅))
                  < 2001).
  { change (length (seq 0 2000) < 2001). rewrite length_seq. lia. }
  rewrite (proj1 (stream_batches_closed_form get_query_filter build_predicate
                    (runner 2000 None None) ["id"] ∅ 2001 Hfuel)).
  change (length (backend (_session (runner 2000 None None))
                    (sample_query_of (runner 2000 None None) ["id"] ∅)))
    with (length (seq 0 2000)).
  rewrite length_seq. reflexivity.
Defined.

Lemma stream_fetches_lazily_witness :
  ∃ gen' self' sizes,
    consume_rows 1 (GenCreated ["id"] ∅) (runner 2500 None None)
    = (take 1 (seq 0 2500), gen', self') ∧
    executed (_session self')
    = [sample_query_of (runner 2500 None None) ["id"] ∅] ∧
    batches (_session self') = sizes ∧
    sum_list sizes = 1 + length (buffered gen') ∧
    length (buffered gen') < 1000.
Proof.
  apply (stream_fetches_lazily get_query_filter build_predicate
           (runner 2500 None None) ["id"] ∅ 1); [lia|].
  change (1 ≤ length (seq 0 2500)). rewrite length_seq. lia.
Defined.

Lemma stream_restarts_after_partial_consumption_witness :
  ∃ gen' self' self'',
    consume_rows 1 (GenCreated ["id"] ∅) (runner 3 None None)
    = ([0], gen', self') ∧
    consume_rows 4 (GenCreated ["id"] ∅) self' = ([0; 1; 2], GenFinished, self'') ∧
    executed (_session self'')
    = [sample_query_of (runner 3 None None) ["id"] ∅;
       sample_query_of (runner 3 None None) ["id"] ∅].
Proof.
  apply (stream_restarts_after_partial_consumption get_query_filter build_predicate
           (runner 3 None None) ["id"] ∅ 1 4); cbn; lia.
Defined.


End Demo.

End Runner.

(** ** The BigQuery sampler *)

Module Sampler.

(** [str.split(sep)] for a one-character separator. *)
Fixpoint split (sep : Ascii.ascii) (s : string) : list string :=
  match s with
  | EmptyString => [EmptyString]
  | String c s =>
      if Ascii.eqb c sep then EmptyString :: split sep s
      else match split sep s with
           | part :: parts => String c part :: parts
           | [] => [String c EmptyString]
           end
  end.

Inductive ProfileSampleType := PERCENTAGE | ROWS.

Inductive TableType :=
| Regular | External | Dynamic | View | SecureView | MaterializedView
| Iceberg | Local | Partitioned | Foreign | Transient.

Definition TableType_eqb (a b : TableType) : bool :=
  match a, b with
  | Regular, Regular | External, External | Dynamic, Dynamic | View, View
  | SecureView, SecureView | MaterializedView, MaterializedView
  | Iceberg, Iceberg | Local, Local | Partitioned, Partitioned
  | Foreign, Foreign | Transient, Transient => true
  | _, _ => false
  end.

Record SampleConfig := mkSampleConfig {
  profile_sample_type : option ProfileSampleType;
  profile_sample : option Z
}.

Record BigQuerySampler := mkBigQuerySampler {
  sample_config : SampleConfig;
  table : DeclarativeMeta;
  table_type : option TableType;
  partition_details : option (gmap string string)
}.

(** [self.sample_config.profile_sample_type == ProfileSampleType.PERCENTAGE] *)
Definition is_percentage (self : BigQuerySampler) : bool :=
  match profile_sample_type (sample_config self) with
  | Some PERCENTAGE => true
  | _ => false
  end.

(** [self.table_type != TableType.View] *)
Definition not_a_view (self : BigQuerySampler) : bool :=
  match table_type self with
  | Some t => negb (TableType_eqb t View)
  | None => true
  end.

(** [self.sample_config.profile_sample or 100] *)
Definition profile_sample_or_100 (self : BigQuerySampler) : Z :=
  match profile_sample (sample_config self) with
  | Some z => if (z =? 0)%Z then 100%Z else z
  | None => 100%Z
  end.

(** [f"TABLESAMPLE SYSTEM ({self.sample_config.profile_sample or 100} PERCENT)"] *)
Definition tablesample_clause (self : BigQuerySampler) : string :=
  "TABLESAMPLE SYSTEM (" +:+ pretty (profile_sample_or_100 self) +:+ " PERCENT)".

(** [Column._set_parent(table)]: the column joins the table's column
    collection, taking the place of a column of the same name if there is
    one. *)
Fixpoint replace_column (column : Column) (columns : list Column) : list Column :=
  match columns with
  | [] => [column]
  | c :: columns =>
      if String.eqb (name c) (name column) then column :: columns
      else c :: replace_column column columns
  end.

Definition _set_parent (column : Column) (self : BigQuerySampler) : BigQuerySampler :=
  {| sample_config := sample_config self;
     table := {| __tablename__ := __tablename__ (table self);
                 __table__c := replace_column column (__table__c (table self)) |};
     table_type := table_type self;
     partition_details := partition_details self |}.

Section WithBase.

Context {Query Predicate : Type}.

(** What the sampler hands back: a query of the base class, possibly with a
    suffix, wrapped as a named CTE, or filtered. *)
Inductive Fragment :=
| FromBase (q : Query)
| SuffixWith (f : Fragment) (suffix : string)
| Cte (f : Fragment) (cte_name : string)
| Filter (f : Fragment) (criterion : Predicate).

Definition S (A : Type) : Type := BigQuerySampler -> A * BigQuerySampler.

Definition ret {A} (a : A) : S A := fun self => (a, self).
Definition bind {A B} (m : S A) (k : A -> S B) : S B :=
  fun self => let '(a, self') := m self in k a self'.
Definition get_self : S BigQuerySampler := fun self => (self, self).

Notation "'let*' x := m 'in' k" := (bind m (fun x => k))
  (at level 10, x name, m at level 100, k at level 200, only parsing).

(** [SQASampler._base_sample_query] and [SQASampler.get_sample_query], the
    methods of the base class reached through [super()]; they read the
    instance and build a query. *)
Variable SQASampler_base_sample_query :
  BigQuerySampler -> option Column -> option string -> Query.
Variable SQASampler_get_sample_query :
  BigQuerySampler -> option Column -> Fragment.

(** [metadata.profiler.processor.handle_partition.build_partition_predicate]. *)
Variable build_partition_predicate :
  gmap string string -> list Column -> Predicate.

Definition _base_sample_query (column : option Column) (label : option string)
  : S Query :=
  let* column :=
    match column with
    | Some c =>
        let column_parts := split "."%char (name c) in
        if 1 <? length column_parts then
          let column := {| name := default "" (head column_parts);
                           type_ := "STRUCT" |} in
          fun self => (Some column, _set_parent column self)
        else ret (Some c)
    | None => ret None
    end in
  let* self := get_self in
  ret (SQASampler_base_sample_query self column label).

(** Body of [get_sample_query], sampler.py lines 100-115. *)
Definition get_sample_query_body (column : option Column) : S Fragment :=
  let* self := get_self in
  if is_percentage self && not_a_view self then
    let* query := _base_sample_query column None in
    let* self := get_self in
    ret (Cte (SuffixWith (FromBase query) (tablesample_clause self))
           (__tablename__ (table self) +:+ "_sample"))
  else ret (SQASampler_get_sample_query self column).

(** Modelled from the spec: the decorator [partition_filter_handler] is not
    part of the two files; with [build_sample=True] it wraps
    [get_sample_query] under the same contract as the runner's table
    operations: when a partition spec is bound the partition predicate is
    ANDed into the filter chain of the sample query the wrapped method
    builds, and without one the wrapped method runs as written. *)
Definition partition_filter_handler_build_sample
    (fn : option Column -> S Fragment) (column : option Column) : S Fragment :=
  let* self := get_self in
  if truthy_dict (partition_details self) then
    let* fragment := fn column in
    ret (Filter fragment
           (build_partition_predicate (default ∅ (partition_details self))
              (__table__c (table self))))
  else fn column.

Definition get_sample_query :=
  partition_filter_handler_build_sample get_sample_query_body.

(** What the decorator makes of a fragment built for [self]. *)
Definition with_partition (self : BigQuerySampler) (f : Fragment) : Fragment :=
  if truthy_dict (partition_details self) then
    Filter f (build_partition_predicate (default ∅ (partition_details self))
                (__table__c (table self)))
  else f.

(** Whether the separator occurs in a string. *)
Fixpoint contains (sep : Ascii.ascii) (s : string) : bool :=
  match s with
  | EmptyString => false
  | String c s => Ascii.eqb c sep || contains sep s
  end.

(** [sep.join(parts)] for a one-character separator. *)
Fixpoint join (sep : Ascii.ascii) (parts : list string) : string :=
  match parts with
  | [] => ""
  | [part] => part
  | part :: parts => part +:+ String sep (join sep parts)
  end.

(** How many times the separator occurs in a string. *)
Fixpoint occurrences (sep : Ascii.ascii) (s : string) : nat :=
  match s with
  | EmptyString => 0
  | String c s => (if Ascii.eqb c sep then 1 else 0) + occurrences sep s
  end.

(** The column [_base_sample_query] samples for a struct field. *)
Definition parent_column (prefix : string) : Column :=
  {| name := prefix; type_ := "STRUCT" |}.

(** The suffixes of a fragment, outermost last. *)
Fixpoint suffixes (f : Fragment) : list string :=
  match f with
  | FromBase _ => []
  | SuffixWith f suffix => suffixes f ++ [suffix]
  | Cte f _ | Filter f _ => suffixes f
  end.

(** ** Facts about [split] *)

Lemma split_nonempty sep s : split sep s ≠ [].
Proof.
  destruct s as [|c s]; cbn [split]; [done|].
  destruct (Ascii.eqb c sep); [done|]. by destruct (split sep s).
Qed.

Lemma split_without_separator sep s :
  contains sep s = false → split sep s = [s].
Proof.
  induction s as [|c s IH]; cbn [split contains]; [done|].
  destruct (Ascii.eqb c sep); [done|]. cbn [orb]. intros Hs.
  by rewrite IH.
Qed.

Lemma append_empty s : "" +:+ s = s.
Proof. reflexivity. Qed.

Lemma append_String c s t : String c s +:+ t = String c (s +:+ t).
Proof. reflexivity. Qed.

Lemma split_at_first_separator sep prefix rest :
  contains sep prefix = false →
  split sep (prefix +:+ String sep rest) = prefix :: split sep rest.
Proof.
  induction prefix as [|c prefix IH].
  - intros _. rewrite append_empty. cbn [split]. by rewrite Ascii.eqb_refl.
  - rewrite append_String. cbn [split contains].
    destruct (Ascii.eqb c sep); [done|]. cbn [orb]. intros Hs.
    by rewrite IH.
Qed.

Lemma contains_separator sep prefix rest :
  contains sep (prefix +:+ String sep rest) = true.
Proof.
  induction prefix as [|c prefix IH].
  - rewrite append_empty. cbn [contains]. by rewrite Ascii.eqb_refl.
  - rewrite append_String. cbn [contains]. rewrite IH. apply orb_true_r.
Qed.

Lemma contains_first_separator sep s :
  contains sep s = true →
  ∃ prefix rest, s = prefix +:+ String sep rest ∧ contains sep prefix = false.
Proof.
  induction s as [|c s IH]; cbn [contains]; [done|].
  destruct (Ascii.eqb_spec c sep) as [->|Hc]; cbn [orb].
  - intros _. by exists EmptyString, s.
  - intros Hs. destruct (IH Hs) as (prefix & rest & -> & Hprefix).
    exists (String c prefix), rest. split; [done|].
    cbn [contains]. destruct (Ascii.eqb_spec c sep); [done|]. exact Hprefix.
Qed.

Lemma split_more_than_one sep s :
  (1 <? length (split sep s)) = contains sep s.
Proof.
  destruct (contains sep s) eqn:Hs.
  - destruct (contains_first_separator _ _ Hs) as (prefix & rest & -> & Hprefix).
    rewrite split_at_first_separator by done.
    pose proof (split_nonempty sep rest). by destruct (split sep rest).
  - by rewrite split_without_separator.
Qed.

Lemma replace_column_elem column columns :
  column ∈ replace_column column columns.
Proof.
  induction columns as [|c columns IH]; cbn [replace_column]; [set_solver|].
  destruct (String.eqb (name c) (name column)); set_solver.
Qed.

Lemma prefix_is_shorter prefix sep rest : prefix ≠ prefix +:+ String sep rest.
Proof.
  induction prefix as [|c prefix IH].
  - by rewrite append_empty.
  - rewrite append_String. intros [= Heq]. by apply IH.
Qed.

(** ** What the sampler builds *)

Lemma base_sample_query_struct self c label prefix rest :
  name c = prefix +:+ String "."%char rest →
  contains "."%char prefix = false →
  _base_sample_query (Some c) label self
  = (SQASampler_base_sample_query (_set_parent (parent_column prefix) self)
       (Some (parent_column prefix)) label,
     _set_parent (parent_column prefix) self).
Proof.
  intros Hname Hprefix. unfold _base_sample_query, bind, get_self, ret.
  rewrite split_more_than_one, Hname, split_at_first_separator by done.
  by rewrite contains_separator.
Qed.

Lemma base_sample_query_plain self c label :
  contains "."%char (name c) = false →
  _base_sample_query (Some c) label self
  = (SQASampler_base_sample_query self (Some c) label, self).
Proof.
  intros Hname. unfold _base_sample_query, bind, get_self, ret.
  by rewrite split_more_than_one, Hname.
Qed.

Lemma base_sample_query_none self label :
  _base_sample_query None label self
  = (SQASampler_base_sample_query self None label, self).
Proof. reflexivity. Qed.

(** [_base_sample_query] touches nothing but the table's columns. *)
Lemma base_sample_query_keeps_config self column label :
  let self' := (_base_sample_query column label self).2 in
  sample_config self' = sample_config self ∧
  __tablename__ (table self') = __tablename__ (table self) ∧
  table_type self' = table_type self ∧
  partition_details self' = partition_details self.
Proof.
  destruct column as [c|]; [|by rewrite base_sample_query_none].
  destruct (contains "."%char (name c)) eqn:Hname.
  - destruct (contains_first_separator _ _ Hname) as (prefix & rest & Hc & Hprefix).
    by rewrite (base_sample_query_struct _ _ _ _ _ Hc Hprefix).
  - by rewrite base_sample_query_plain.
Qed.

Lemma get_sample_query_decorated self column :
  get_sample_query column self
  = (with_partition self (get_sample_query_body column self).1,
     (get_sample_query_body column self).2).
Proof.
  unfold get_sample_query, partition_filter_handler_build_sample, with_partition,
    bind, get_self, ret.
  destruct (truthy_dict (partition_details self));
    by destruct (get_sample_query_body column self).
Qed.

Lemma get_sample_query_body_tablesample self column :
  is_percentage self && not_a_view self = true →
  get_sample_query_body column self
  = (Cte (SuffixWith (FromBase (_base_sample_query column None self).1)
            (tablesample_clause self))
       (__tablename__ (table self) +:+ "_sample"),
     (_base_sample_query column None self).2).
Proof.
  intros Hcond. unfold get_sample_query_body, bind, get_self, ret. cbn beta iota.
  rewrite Hcond.
  destruct (base_sample_query_keeps_config self column None) as (Hcfg & Hname & _).
  destruct (_base_sample_query column None self) as [query self']. cbn [fst snd] in *.
  unfold tablesample_clause, profile_sample_or_100. by rewrite Hcfg, Hname.
Qed.

Lemma get_sample_query_body_fallback self column :
  is_percentage self && not_a_view self = false →
  get_sample_query_body column self
  = (SQASampler_get_sample_query self column, self).
Proof.
  intros Hcond. unfold get_sample_query_body, bind, get_self, ret. cbn beta iota.
  by rewrite Hcond.
Qed.

Lemma not_a_view_spec self : not_a_view self = false ↔ table_type self = Some View.
Proof.
  unfold not_a_view. destruct (table_type self) as [[]|]; cbn; split; congruence.
Qed.

Lemma suffixes_with_partition self f : suffixes (with_partition self f) = suffixes f.
Proof. unfold with_partition. by destruct (truthy_dict (partition_details self)). Qed.

(** ** The claims about the sampler *)

(** C6: with a percentage-based sample config, [get_sample_query] on a view
    adds no TABLESAMPLE clause and returns what the base class's
    [get_sample_query] builds; on any other table it returns the base sample
    query suffixed with the TABLESAMPLE SYSTEM clause, as a CTE named after
    the table.  In both cases the decorator adds the partition predicate when
    a partition spec is bound. *)
Theorem view_falls_back_to_base_sampling self column :
  is_percentage self = true →
  (table_type self = Some View →
     get_sample_query column self
     = (with_partition self (SQASampler_get_sample_query self column), self)) ∧
  (table_type self ≠ Some View →
     get_sample_query column self
     = (with_partition self
          (Cte (SuffixWith (FromBase (_base_sample_query column None self).1)
                  (tablesample_clause self))
             (__tablename__ (table self) +:+ "_sample")),
        (_base_sample_query column None self).2)).
Proof.
  intros Hpct. split; intros Hview; rewrite get_sample_query_decorated.
  - apply not_a_view_spec in Hview.
    rewrite get_sample_query_body_fallback; [done|].
    by rewrite Hpct, Hview.
  - rewrite get_sample_query_body_tablesample; [done|].
    rewrite Hpct. cbn [andb].
    destruct (not_a_view self) eqn:Hnv; [done|].
    by apply not_a_view_spec in Hnv.
Qed.

(** C7: for a column whose name contains a dot, [_base_sample_query] makes
    a new STRUCT column named after the part before the first dot, attaches
    it to the table's column collection, and hands that column, not the
    nested one, to the base class's [_base_sample_query]. *)
Theorem struct_column_sampled_through_parent self c label :
  contains "."%char (name c) = true →
  ∃ prefix rest,
    name c = prefix +:+ String "."%char rest ∧
    contains "."%char prefix = false ∧
    head (split "."%char (name c)) = Some prefix ∧
    _base_sample_query (Some c) label self
    = (SQASampler_base_sample_query (_set_parent (parent_column prefix) self)
         (Some (parent_column prefix)) label,
       _set_parent (parent_column prefix) self) ∧
    parent_column prefix
      ∈ __table__c (table (_set_parent (parent_column prefix) self)) ∧
    name (parent_column prefix) ≠ name c.
Proof.
  intros Hname.
  destruct (contains_first_separator _ _ Hname) as (prefix & rest & Hc & Hprefix).
  exists prefix, rest. split; [done|]. split; [done|].
  split; [by rewrite Hc, split_at_first_separator|].
  split; [by apply base_sample_query_struct with rest|].
  split; [apply replace_column_elem|].
  rewrite Hc. apply prefix_is_shorter.
Qed.

(** C9: with a percentage-based sample config on a table that is not a
    view, an unset or zero [profile_sample] gives the clause
    [TABLESAMPLE SYSTEM (100 PERCENT)]. *)
Theorem unset_percentage_defaults_to_100 self column :
  is_percentage self = true →
  table_type self ≠ Some View →
  profile_sample (sample_config self) = None
  ∨ profile_sample (sample_config self) = Some 0%Z →
  tablesample_clause self = "TABLESAMPLE SYSTEM (100 PERCENT)" ∧
  suffixes (get_sample_query column self).1 = ["TABLESAMPLE SYSTEM (100 PERCENT)"].
Proof.
  intros Hpct Hview Hsample.
  assert (Hclause : tablesample_clause self = "TABLESAMPLE SYSTEM (100 PERCENT)").
  { unfold tablesample_clause, profile_sample_or_100.
    destruct Hsample as [-> | ->]; reflexivity. }
  split; [exact Hclause|].
  rewrite get_sample_query_decorated. cbn [fst].
  rewrite suffixes_with_partition, get_sample_query_body_tablesample.
  - cbn [fst suffixes app]. by rewrite Hclause.
  - rewrite Hpct. cbn [andb].
    destruct (not_a_view self) eqn:Hnv; [done|].
    by apply not_a_view_spec in Hnv.
Qed.

(** ** Further properties of the sampler *)

Lemma split_parts_without_separator sep s :
  Forall (λ part, contains sep part = false) (split sep s).
Proof.
  induction s as [|c s IH]; cbn [split].
  - by repeat constructor.
  - destruct (Ascii.eqb c sep) eqn:Hc.
    + by constructor.
    + pose proof (split_nonempty sep s) as Hne.
      destruct (split sep s) as [|part parts]; [done|].
      inversion IH as [|? ? Hpart Hparts]; subst.
      constructor; [|done]. cbn [contains]. by rewrite Hc.
Qed.

Lemma join_cons sep part part' parts :
  join sep (part :: part' :: parts)
  = part +:+ String sep (join sep (part' :: parts)).
Proof. reflexivity. Qed.

Lemma join_split sep s : join sep (split sep s) = s.
Proof.
  induction s as [|c s IH]; cbn [split]; [done|].
  pose proof (split_nonempty sep s) as Hne.
  destruct (Ascii.eqb_spec c sep) as [->|Hc].
  - destruct (split sep s) as [|part parts]; [done|].
    by rewrite join_cons, IH.
  - destruct (split sep s) as [|part [|part' parts]]; [done| |].
    + cbn [join] in *. by rewrite IH.
    + rewrite join_cons in *. rewrite append_String. by rewrite IH.
Qed.

Lemma length_split sep s : length (split sep s) = Datatypes.S (occurrences sep s).
Proof.
  induction s as [|c s IH]; cbn [split occurrences]; [done|].
  destruct (Ascii.eqb c sep).
  - cbn [length]. by rewrite IH.
  - pose proof (split_nonempty sep s) as Hne.
    destruct (split sep s) as [|part parts]; [done|]. exact IH.
Qed.

(** X11: [split] and [join] are inverse on a string: joining the parts of a
    name with the separator gives the name back; no part contains the
    separator; and there is one part more than there are separators, so a
    name has more than one part exactly when it contains the separator. *)
Theorem split_round_trip sep s :
  join sep (split sep s) = s ∧
  Forall (λ part, contains sep part = false) (split sep s) ∧
  length (split sep s) = Datatypes.S (occurrences sep s) ∧
  (1 <? length (split sep s)) = contains sep s.
Proof.
  split; [apply join_split|].
  split; [apply split_parts_without_separator|].
  split; [apply length_split|]. apply split_more_than_one.
Qed.

(** X12: a column whose name has no dot, and the absence of a column, go to
    the base class's [_base_sample_query] as they are, and the instance,
    the table's column collection included, is left as it was. *)
Theorem plain_column_sampled_as_is self label :
  (∀ c, contains "."%char (name c) = false →
        _base_sample_query (Some c) label self
        = (SQASampler_base_sample_query self (Some c) label, self)) ∧
  _base_sample_query None label self
  = (SQASampler_base_sample_query self None label, self).
Proof.
  split; [|apply base_sample_query_none].
  intros c Hname. by apply base_sample_query_plain.
Qed.

(** X13: whatever the column, [_base_sample_query] leaves the sample
    config, the table's name, the table type and the partition spec of the
    instance as they were: the only thing it may change is the table's
    column collection. *)
Theorem base_sample_query_frame self column label :
  sample_config (_base_sample_query column label self).2 = sample_config self ∧
  __tablename__ (table (_base_sample_query column label self).2)
  = __tablename__ (table self) ∧
  table_type (_base_sample_query column label self).2 = table_type self ∧
  partition_details (_base_sample_query column label self).2
  = partition_details self.
Proof. apply base_sample_query_keeps_config. Qed.

(** X14: when the sample type is not PERCENTAGE (ROWS, or unset), the body
    of [get_sample_query] returns what the base class's [get_sample_query]
    builds, whatever the table type and the configured magnitude: the
    TABLESAMPLE clause is for percentage sampling only. *)
Theorem rows_sampling_uses_base_query self column :
  is_percentage self = false →
  (get_sample_query_body column self).1 = SQASampler_get_sample_query self column.
Proof.
  intros Hpct. rewrite get_sample_query_body_fallback; [done|].
  by rewrite Hpct.
Qed.

(** X15: with percentage sampling on a table that is not a view, a
    configured magnitude other than zero is written into the clause as it
    is: the body of [get_sample_query] checks no range, so a magnitude above
    100 or below 0 ends up in the statement. *)
Theorem percentage_rendered_as_configured self column z :
  is_percentage self = true →
  not_a_view self = true →
  profile_sample (sample_config self) = Some z →
  z ≠ 0%Z →
  suffixes (get_sample_query_body column self).1
  = ["TABLESAMPLE SYSTEM (" +:+ pretty z +:+ " PERCENT)"].
Proof.
  intros Hpct Hview Hsample Hz.
  rewrite get_sample_query_body_tablesample by (by rewrite Hpct, Hview).
  cbn [fst suffixes app]. unfold tablesample_clause, profile_sample_or_100.
  rewrite Hsample. by destruct (Z.eqb_spec z 0).
Qed.

(** X16: on the TABLESAMPLE path a struct field is sampled through its
    parent: for a column [prefix.rest] the body of [get_sample_query]
    returns the base sample query of the STRUCT column [prefix], suffixed
    and wrapped as the CTE [<table>_sample], and leaves the instance with
    that parent column attached to the table. *)
Theorem struct_column_tablesample self c prefix rest :
  is_percentage self = true →
  not_a_view self = true →
  name c = prefix +:+ String "."%char rest →
  contains "."%char prefix = false →
  get_sample_query_body (Some c) self
  = (Cte (SuffixWith
            (FromBase (SQASampler_base_sample_query
                         (_set_parent (parent_column prefix) self)
                         (Some (parent_column prefix)) None))
            (tablesample_clause self))
       (__tablename__ (table self) +:+ "_sample"),
     _set_parent (parent_column prefix) self).
Proof.
  intros Hpct Hview Hname Hprefix.
  rewrite get_sample_query_body_tablesample by (by rewrite Hpct, Hview).
  by rewrite (base_sample_query_struct _ _ _ _ _ Hname Hprefix).
Qed.

End WithBase.

(** ** A concrete base class

    Queries are their SQL text. *)
Module DemoBase.

Definition customers : DeclarativeMeta :=
  {| __tablename__ := "customers";
     __table__c := [mkColumn "id" "INT"; mkColumn "address.city" "STRING"] |}.

Definition base_sample_query (self : BigQuerySampler) (column : option Column)
    (label : option string) : string :=
  "SELECT " +:+ from_option name "*" column
  +:+ " FROM " +:+ __tablename__ (table self).

Definition base_get_sample_query (self : BigQuerySampler)
    (column : option Column) : @Fragment string string :=
  Cte (FromBase (base_sample_query self column None +:+ " WHERE random <= 50"))
    (__tablename__ (table self) +:+ "_rnd").

Definition build_predicate (details : gmap string string) (columns : list Column)
  : string :=
  default "" (details !! "partitionColumnName") +:+ " = CURRENT_DATE".

Definition sampler (kind : option TableType) (percent : option Z)
  : BigQuerySampler :=
  {| sample_config := {| profile_sample_type := Some PERCENTAGE;
                         profile_sample := percent |};
     table := customers;
     table_type := kind;
     partition_details := None |}.

Definition address_city : Column := mkColumn "address.city" "STRING".

Abbreviation sample_query :=
  (get_sample_query base_sample_query base_get_sample_query build_predicate).
Abbreviation base_query :=
  (_base_sample_query (Query:=string) base_sample_query).

Lemma view_falls_back_to_base_sampling_witness :
  sample_query (Some address_city) (sampler (Some View) (Some 50%Z))
    = (Cte (FromBase "SELECT address.city FROM customers WHERE random <= 50")
         "customers_rnd",
       sampler (Some View) (Some 50%Z)) ∧
  (sample_query None (sampler (Some Regular) (Some 50%Z))).1
    = Cte (SuffixWith (FromBase "SELECT * FROM customers")
             "TABLESAMPLE SYSTEM (50 PERCENT)")
        "customers_sample".
Proof.
  split.
  - exact (proj1 (view_falls_back_to_base_sampling base_sample_query
                    base_get_sample_query build_predicate
                    (sampler (Some View) (Some 50%Z)) (Some address_city) eq_refl)
             eq_refl).
  - exact (f_equal fst
             (proj2 (view_falls_back_to_base_sampling base_sample_query
                       base_get_sample_query build_predicate
                       (sampler (Some Regular) (Some 50%Z)) None eq_refl)
                ltac:(discriminate))).
Defined.

Lemma struct_column_sampled_through_parent_witness :
  base_query (Some address_city) None (sampler None (Some 50%Z))
    = ("SELECT address FROM customers",
       _set_parent (parent_column "address") (sampler None (Some 50%Z))) ∧
  __table__c (table (_set_parent (parent_column "address")
                       (sampler None (Some 50%Z))))
    = [mkColumn "id" "INT"; mkColumn "address.city" "STRING";
       mkColumn "address" "STRUCT"].
Proof.
  destruct (struct_column_sampled_through_parent base_sample_query
              (sampler None (Some 50%Z)) address_city None eq_refl)
    as (prefix & rest & _ & _ & Hhead & Hrun & _ & _).
  injection Hhead as <-. split; [exact Hrun | reflexivity].
Defined.

Lemma unset_percentage_defaults_to_100_witness :
  suffixes (sample_query None (sampler (Some Regular) None)).1
    = ["TABLESAMPLE SYSTEM (100 PERCENT)"] ∧
  suffixes (sample_query None (sampler None (Some 0%Z))).1
    = ["TABLESAMPLE SYSTEM (100 PERCENT)"].
Proof.
  split.
  - exact (proj2 (unset_percentage_defaults_to_100 base_sample_query
                    base_get_sample_query build_predicate
                    (sampler (Some Regular) None) None eq_refl
                    ltac:(discriminate) (or_introl eq_refl))).
  - exact (proj2 (unset_percentage_defaults_to_100 base_sample_query
                    base_get_sample_query build_predicate
                    (sampler None (Some 0%Z)) None eq_refl
                    ltac:(discriminate) (or_intror eq_refl))).
Defined.

(** *** Instances of the further properties *)

Abbreviation sample_query_body :=
  (get_sample_query_body (Predicate:=string) base_sample_query base_get_sample_query).

Definition rows_sampler (kind : option TableType) (count : option Z)
  : BigQuerySampler :=
  {| sample_config := {| profile_sample_type := Some ROWS;
                         profile_sample := count |};
     table := customers;
     table_type := kind;
     partition_details := None |}.

Lemma plain_column_sampled_as_is_witness :
  base_query (Some (mkColumn "id" "INT")) None (sampler None (Some 50%Z))
  = ("SELECT id FROM customers", sampler None (Some 50%Z)).
Proof.
  exact (proj1 (plain_column_sampled_as_is base_sample_query
                  (sampler None (Some 50%Z)) None)
           (mkColumn "id" "INT") eq_refl).
Defined.

Lemma rows_sampling_uses_base_query_witness :
  (sample_query_body None (rows_sampler (Some Regular) (Some 100%Z))).1
  = Cte (FromBase "SELECT * FROM customers WHERE random <= 50") "customers_rnd".
Proof.
  exact (rows_sampling_uses_base_query base_sample_query base_get_sample_query
           (rows_sampler (Some Regular) (Some 100%Z)) None eq_refl).
Defined.

Lemma percentage_rendered_as_configured_witness :
  suffixes (sample_query_body None (sampler (Some Regular) (Some 150%Z))).1
  = ["TABLESAMPLE SYSTEM (150 PERCENT)"] ∧
  suffixes (sample_query_body None (sampler None (Some (-5)%Z))).1
  = ["TABLESAMPLE SYSTEM (-5 PERCENT)"].
Proof.
  split.
  - exact (percentage_rendered_as_configured base_sample_query base_get_sample_query
             (sampler (Some Regular) (Some 150%Z)) None 150%Z
             eq_refl eq_refl eq_refl ltac:(discriminate)).
  - exact (percentage_rendered_as_configured base_sample_query base_get_sample_query
             (sampler None (Some (-5)%Z)) None (-5)%Z
             eq_refl eq_refl eq_refl ltac:(discriminate)).
Defined.

Lemma struct_column_tablesample_witness :
  sample_query_body (Some address_city) (sampler (Some Regular) (Some 50%Z))
  = (Cte (SuffixWith (FromBase "SELECT address FROM customers")
            "TABLESAMPLE SYSTEM (50 PERCENT)")
       "customers_sample",
     _set_parent (parent_column "address") (sampler (Some Regular) (Some 50%Z))).
Proof.
  exact (struct_column_tablesample base_sample_query base_get_sample_query
           (sampler (Some Regular) (Some 50%Z)) address_city "address" "city"
           eq_refl eq_refl eq_refl eq_refl).
Defined.

End DemoBase.

End Sampler.
